(** * docs/conf.py of bit-recover: the Sphinx configuration as a program

    The file is a Python module that the documentation builder executes
    once.  It is embedded here as what it is: a straight-line list of
    top-level statements run against an interpreter state (the process
    environment, the working directory, [sys.path] and the module's global
    namespace), in a state-and-exception monad.  *)

From Stdlib Require Import ZArith String List Bool.
From stdpp Require Import gmap strings list fin_maps.

Open Scope string_scope.
Open Scope Z_scope.

(** ** Python values *)

(** The objects the file builds: [None], booleans, integers, strings (the
    [u'...'] literals are plain strings), lists, tuples, dictionaries with
    string keys in insertion order, and references to imported modules. *)
#[warnings="-register-all"]
Inductive pyval : Type :=
| PNone
| PBool (b : bool)
| PInt (n : Z)
| PStr (s : string)
| PList (items : list pyval)
| PTuple (items : list pyval)
| PDict (entries : list (string * pyval))
| PModule (name : string).

(** Python's [==] on these objects.  Values of unrelated types compare by
    identity, hence unequal ([None == 'True'] is [False]); [bool] is a
    subtype of [int]; sequences compare element-wise; dictionaries compare
    as mappings. *)
Fixpoint py_eq (a b : pyval) {struct a} : bool :=
  match a, b with
  | PNone, PNone => true
  | PBool x, PBool y => Bool.eqb x y
  | PBool x, PInt n => (if x then 1 else 0) =? n
  | PInt m, PBool y => m =? (if y then 1 else 0)
  | PInt m, PInt n => m =? n
  | PStr s, PStr t => String.eqb s t
  | PList xs, PList ys | PTuple xs, PTuple ys =>
      (fix seq_eq (xs ys : list pyval) {struct xs} : bool :=
         match xs, ys with
         | [], [] => true
         | x :: xs', y :: ys' => py_eq x y && seq_eq xs' ys'
         | _, _ => false
         end) xs ys
  | PDict d, PDict e =>
      (length d =? length e)%nat &&
      (fix all_in (d : list (string * pyval)) {struct d} : bool :=
         match d with
         | [] => true
         | (k, v) :: d' =>
             match List.find (λ kw, String.eqb k kw.1) e with
             | Some (_, w) => py_eq v w
             | None => false
             end && all_in d'
         end) d
  | PModule m, PModule n => String.eqb m n
  | _, _ => false
  end.

(** Truth value of an object, as tested by [if]. *)
Definition truthy (v : pyval) : bool :=
  match v with
  | PNone => false
  | PBool b => b
  | PInt n => negb (n =? 0)
  | PStr s => negb (String.eqb s "")
  | PList items | PTuple items => negb (Nat.eqb (length items) 0)
  | PDict entries => negb (Nat.eqb (length entries) 0)
  | PModule _ => true
  end.

(** ** Interpreter state *)

Record Interp : Type := MkInterp {
  os_environ : gmap string string;   (* os.environ *)
  cwd : string;                      (* os.getcwd() *)
  sys_path : list string;            (* sys.path *)
  globals : gmap string pyval        (* the module's namespace *)
}.

Definition set_globals (f : gmap string pyval → gmap string pyval)
    (σ : Interp) : Interp :=
  {| os_environ := os_environ σ; cwd := cwd σ; sys_path := sys_path σ;
     globals := f (globals σ) |}.

Definition set_sys_path (f : list string → list string) (σ : Interp) : Interp :=
  {| os_environ := os_environ σ; cwd := cwd σ; sys_path := f (sys_path σ);
     globals := globals σ |}.

(** ** Statements: state passing with exceptions *)

Inductive exn : Type :=
| NameError (name : string)
| AttributeError (name : string)
| ImportError
| TypeError
| FileNotFoundError.

Inductive result (A : Type) : Type :=
| Ok (a : A) (σ : Interp)
| Raise (e : exn).
Arguments Ok {A} a σ.
Arguments Raise {A} e.

Definition M (A : Type) : Type := Interp → result A.

#[export] Instance M_ret : MRet M := λ A a σ, Ok a σ.
#[export] Instance M_bind : MBind M := λ A B f m σ,
  match m σ with
  | Ok a σ' => f a σ'
  | Raise e => Raise e
  end.

Definition raise {A} (e : exn) : M A := λ _, Raise e.

(** [x = v] at top level. *)
Definition assign (x : string) (v : pyval) : M unit :=
  λ σ, Ok tt (set_globals <[x := v]> σ).

(** Reading a global name; unbound names raise [NameError]. *)
Definition name (x : string) : M pyval :=
  λ σ, match globals σ !! x with
       | Some v => Ok v σ
       | None => Raise (NameError x)
       end.

(** [import m] binds the name [m] to the module object. *)
Definition import_ (m : string) : M unit := assign m (PModule m).

(** The head [m.] of the attribute references of the file
    ([sys.path.insert], [os.path.abspath], [os.environ.get]): the name must
    be bound to the module that has the attribute.  The objects of [pyval]
    that are not modules have none of these attributes, and neither has the
    other module the file imports ([sys] has no [environ], [os.path] has no
    [insert], [sys.path] has no [abspath]); a module the file does not
    import is treated like them, which no result below relies on. *)
Definition module_ref (m : string) : M unit :=
  v ← name m;
  match v with
  | PModule m' => if String.eqb m m' then mret tt else raise (AttributeError m)
  | _ => raise (AttributeError m)
  end.

(** [list.insert(i, x)]: negative indices count from the end, and indices
    out of range are clamped. *)
Definition list_insert {A} (i : Z) (x : A) (l : list A) : list A :=
  let n := Z.of_nat (length l) in
  let j := if i <? 0 then Z.max 0 (i + n) else Z.min i n in
  take (Z.to_nat j) l ++ x :: drop (Z.to_nat j) l.

Definition sys_path_insert (i : Z) (x : string) : M unit :=
  λ σ, Ok tt (set_sys_path (list_insert i x) σ).

(** [os.environ.get(k, default)]. *)
Definition os_environ_get (k : string) (default : pyval) : M pyval :=
  λ σ, Ok (match os_environ σ !! k with
           | Some s => PStr s
           | None => default
           end) σ.

(** A module body is run statement by statement, in order, once. *)
Fixpoint exec (body : list (M unit)) : M unit :=
  match body with
  | [] => mret tt
  | s :: rest => s ;; exec rest
  end.

(** A run of consecutive assignments [k = literal]. *)
Definition literals (kvs : list (string * pyval)) : list (M unit) :=
  (λ kv, assign kv.1 kv.2) <$> kvs.

(** The namespace after a run of assignments: later bindings win. *)
Definition bind_all (kvs : list (string * pyval))
    (g : gmap string pyval) : gmap string pyval :=
  foldl (λ g kv, <[kv.1 := kv.2]> g) g kvs.

(** The binding a run of assignments leaves for a name, if it has one. *)
Fixpoint last_binding (k : string) (kvs : list (string * pyval)) : option pyval :=
  match kvs with
  | [] => None
  | kv :: rest =>
      match last_binding k rest with
      | Some v => Some v
      | None => if String.eqb kv.1 k then Some kv.2 else None
      end
  end.

Section Conf.

(** [os.path.abspath] belongs to the Python library: its result is a
    function of the working directory and of its argument. *)
Variable abspath : string → string → string.

(** [os.path.abspath(p)] in a process whose working directory exists; the
    call as it is in any process is [os_path_abspath_guarded] below. *)
Definition os_path_abspath (p : string) : M string :=
  λ σ, Ok (abspath (cwd σ) p) σ.

(** ** docs/conf.py *)

(** Lines 3-6, where the library calls succeed. *)
Definition preamble : list (M unit) :=
  [ import_ "sys";
    import_ "os";
    (* sys.path.insert(0, os.path.abspath('')) *)
    (module_ref "sys";; module_ref "os";;
     p ← os_path_abspath ""; sys_path_insert 0 p) ].

(** Lines 8-30. *)
Definition general_options : list (string * pyval) :=
  [ ("extensions", PList [ PStr "sphinx.ext.autodoc";
                           PStr "sphinx.ext.doctest";
                           PStr "sphinxcontrib.napoleon";
                           PStr "sphinx.ext.todo";
                           PStr "sphinx.ext.coverage";
                           PStr "sphinx.ext.mathjax";
                           PStr "sphinx.ext.ifconfig";
                           PStr "sphinx.ext.viewcode" ]);
    ("templates_path", PList [PStr "_templates"]);
    ("source_suffix", PStr ".rst");
    ("master_doc", PStr "index");
    ("project", PStr "Bit Recovery");
    ("copyright", PStr "2013, Dirk Roorda");
    ("version", PStr "1.2");
    ("release", PStr "1.2.1");
    ("exclude_patterns", PList [PStr "_build"]);
    ("add_function_parentheses", PBool true);
    ("add_module_names", PBool false);
    ("pygments_style", PStr "sphinx");
    ("autoclass_content", PStr "both") ].

(** Lines 34-38. *)
Definition theme_selection : list (M unit) :=
  [ (* on_rtd = os.environ.get('READTHEDOCS', None) == 'True' *)
    (module_ref "os";;
     v ← os_environ_get "READTHEDOCS" PNone;
     assign "on_rtd" (PBool (py_eq v (PStr "True"))));
    (* if on_rtd: ... else: ... *)
    (c ← name "on_rtd";
     if truthy c
     then assign "html_theme" (PStr "default")
     else assign "html_theme" (PStr "sphinx_rtd_theme")) ].

(** Lines 39-86. *)
Definition output_options : list (string * pyval) :=
  [ ("html_theme_path", PList [PStr "_themes"]);
    ("html_static_path", PList [PStr "_static"]);
    ("html_domain_indices", PBool true);
    ("html_use_index", PBool true);
    ("html_split_index", PBool false);
    ("html_show_sourcelink", PBool true);
    ("html_show_sphinx", PBool true);
    ("html_show_copyright", PBool true);
    ("htmlhelp_basename", PStr "Bit Recovery");
    ("latex_elements", PDict [ ("papersize", PStr "a4paper");
                               ("pointsize", PStr "10pt") ]);
    ("latex_documents",
       PList [ PTuple [ PStr "index"; PStr "Bit Recovery.tex";
                        PStr "Bit Recovery Documentation";
                        PStr "Dirk Roorda"; PStr "manual" ] ]);
    ("man_pages",
       PList [ PTuple [ PStr "index"; PStr "Bit Recovery";
                        PStr "Bit Recovery Documentation";
                        PList [PStr "Dirk Roorda"]; PInt 1 ] ]);
    ("texinfo_documents",
       PList [ PTuple [ PStr "index"; PStr "Bit Recovery";
                        PStr "Bit Recovery Documentation";
                        PStr "Dirk Roorda"; PStr "Bit Recovery";
                        PStr "One line description of project.";
                        PStr "Miscellaneous" ] ]);
    ("epub_title", PStr "Bit Recovery");
    ("epub_author", PStr "Dirk Roorda");
    ("epub_publisher", PStr "Dirk Roorda");
    ("epub_copyright", PStr "2013, Dirk Roorda");
    ("epub_basename", PStr "Bit Recovery");
    ("epub_theme", PStr "epub");
    ("epub_show_urls", PStr "footnote");
    ("epub_use_index", PBool true) ].

Definition conf : list (M unit) :=
  preamble ++ literals general_options
           ++ theme_selection ++ literals output_options.

(** The body executed [n] times over in the same process and namespace,
    as when the module is reloaded. *)
Definition reruns (n : nat) : list (M unit) :=
  concat (replicate n conf).

(** *** What a run leaves behind, in closed form *)

(** The outcome of the test on line 34. *)
Definition rtd_flag (σ : Interp) : bool :=
  py_eq (match os_environ σ !! "READTHEDOCS" with
         | Some s => PStr s
         | None => PNone
         end) (PStr "True").

Definition theme_name (b : bool) : string :=
  if b then "default" else "sphinx_rtd_theme".

(** Every binding the file makes, in program order, when the test on
    line 34 comes out as [b]. *)
Definition conf_bindings (b : bool) : list (string * pyval) :=
  [ ("sys", PModule "sys"); ("os", PModule "os") ]
  ++ general_options
  ++ [ ("on_rtd", PBool b); ("html_theme", PStr (theme_name b)) ]
  ++ output_options.

(** The names the file binds. *)
Definition assigned_names : list string := (conf_bindings true).*1.

Definition conf_post (σ : Interp) : Interp :=
  {| os_environ := os_environ σ;
     cwd := cwd σ;
     sys_path := abspath (cwd σ) "" :: sys_path σ;
     globals := bind_all (conf_bindings (rtd_flag σ)) (globals σ) |}.

End Conf.

(** ** The library calls that can fail

    Three statements of the file call into the library: the two [import]s
    and [os.path.abspath('')].  [conf] above is the file where these calls
    succeed; [conf_guarded] is the file with their failures kept. *)

Section Guarded.

Variable abspath : string → string → string.

(** The file system: whether a path still names a directory. *)
Variable dir_exists : string → bool.

(** What an [import] does when the caller of the file has bound
    [__builtins__] to an object that is neither a dictionary nor the
    [builtins] module; it depends on that object ([None]: it succeeds). *)
Variable foreign_import : pyval → option exn.

(** The outcome of the import machinery, given what the namespace binds
    [__builtins__] to.  Unbound, the interpreter's own builtins are used.
    A dictionary must hold [__import__]: without it the statement raises
    [ImportError], and with it the entry is called, which no object of
    [pyval] supports. *)
Definition import_outcome (b : option pyval) : option exn :=
  match b with
  | None => None
  | Some (PDict entries) =>
      if existsb (λ kv, String.eqb kv.1 "__import__") entries
      then Some TypeError else Some ImportError
  | Some (PModule m) =>
      if String.eqb m "builtins" then None else foreign_import (PModule m)
  | Some v => foreign_import v
  end.

(** [import m]. *)
Definition import_guarded (m : string) : M unit :=
  λ σ, match import_outcome (globals σ !! "__builtins__") with
       | None => import_ m σ
       | Some e => Raise e
       end.

(** [os.getcwd()] raises when the working directory has been removed. *)
Definition os_getcwd : M string :=
  λ σ, if dir_exists (cwd σ) then Ok (cwd σ) σ else Raise FileNotFoundError.

Definition isabs (p : string) : bool := String.prefix "/" p.

(** [os.path.abspath(p)]: a relative path is joined to [os.getcwd()]. *)
Definition os_path_abspath_guarded (p : string) : M string :=
  if isabs p then os_path_abspath abspath p
  else (_ ← os_getcwd; os_path_abspath abspath p).

(** Lines 3-6. *)
Definition preamble_guarded : list (M unit) :=
  [ import_guarded "sys";
    import_guarded "os";
    (* sys.path.insert(0, os.path.abspath('')) *)
    (module_ref "sys";; module_ref "os";;
     p ← os_path_abspath_guarded ""; sys_path_insert 0 p) ].

Definition conf_guarded : list (M unit) :=
  preamble_guarded ++ literals general_options
                   ++ theme_selection ++ literals output_options.

End Guarded.

(** ** Sample processes *)

(** A stand-in for the library's [abspath] on the paths used below: the
    empty path is the working directory itself. *)
Definition cwd_abspath (dir p : string) : string :=
  if String.eqb p "" then dir else dir +:+ "/" +:+ p.

Definition process (env : gmap string string) : Interp :=
  {| os_environ := env; cwd := "/home/docs/bit-recover/docs";
     sys_path := ["/usr/lib/python3"]; globals := ∅ |}.

(** The four scenarios of the specification. *)
Definition rtd_unset : Interp := process {[ "HOME" := "/home/docs" ]}.
Definition rtd_True : Interp := process {[ "READTHEDOCS" := "True" ]}.
Definition rtd_false : Interp := process {[ "READTHEDOCS" := "false" ]}.
Definition rtd_TRUE : Interp := process {[ "READTHEDOCS" := "TRUE" ]}.

(** A build on another machine that agrees with [rtd_True] on
    [READTHEDOCS] only. *)
Definition rtd_True_elsewhere : Interp :=
  {| os_environ := <["LANG" := "C"]> {[ "READTHEDOCS" := "True" ]};
     cwd := "/tmp/checkout/docs"; sys_path := []; globals := ∅ |}.

(** A run started in a namespace that already holds a name of the caller. *)
Definition rtd_prepared : Interp :=
  {| os_environ := ∅; cwd := "/home/docs/bit-recover/docs";
     sys_path := ["/usr/lib/python3"];
     globals := {[ "__file__" := PStr "conf.py" ]} |}.


(** A file system where every directory exists, and one from which the
    directory [gone] has been removed. *)
Definition every_dir : string → bool := λ _, true.
Definition fs_without (gone : string) : string → bool :=
  λ d, negb (String.eqb d gone).

(** A stand-in for imports under a foreign [__builtins__]: they fail. *)
Definition foreign_import_fails : pyval → option exn := λ _, Some ImportError.

(** A run whose caller passed an empty [__builtins__]. *)
Definition rtd_empty_builtins : Interp :=
  {| os_environ := ∅; cwd := "/home/docs/bit-recover/docs";
     sys_path := ["/usr/lib/python3"];
     globals := {[ "__builtins__" := PDict [] ]} |}.

(** Namespaces for lines 34-38 on their own: [os] unbound, and [os] bound
    to something that is not the module. *)
Definition no_os : Interp := process ∅.
Definition os_shadowed : Interp :=
  {| os_environ := ∅; cwd := "/"; sys_path := [];
     globals := {[ "os" := PStr "posix" ]} |}.

(** ** Running blocks of statements *)

Lemma exec_app (b1 b2 : list (M unit)) (σ : Interp) :
  exec (b1 ++ b2) σ = match exec b1 σ with
                      | Ok _ σ' => exec b2 σ'
                      | Raise e => Raise e
                      end.
Proof.
  revert σ. induction b1 as [|s b1 IH]; intros σ; simpl; [done|].
  unfold mbind, M_bind. destruct (s σ) as [[] σ'|e]; [apply IH | done].
Qed.

Lemma exec_literals (kvs : list (string * pyval)) (σ : Interp) :
  exec (literals kvs) σ = Ok tt (set_globals (bind_all kvs) σ).
Proof.
  revert σ. induction kvs as [|[k v] kvs IH]; intros σ.
  - by destruct σ.
  - simpl. unfold mbind, M_bind, assign. rewrite IH. by destruct σ.
Qed.

Lemma bind_all_app (l1 l2 : list (string * pyval)) (g : gmap string pyval) :
  bind_all (l1 ++ l2) g = bind_all l2 (bind_all l1 g).
Proof. apply foldl_app. Qed.

Lemma last_binding_app (k : string) (l1 l2 : list (string * pyval)) :
  last_binding k (l1 ++ l2) = match last_binding k l2 with
                              | Some v => Some v
                              | None => last_binding k l1
                              end.
Proof.
  induction l1 as [|kv l1 IH]; simpl.
  - by destruct (last_binding k l2).
  - rewrite IH. by destruct (last_binding k l2).
Qed.

Lemma last_binding_None (k : string) (kvs : list (string * pyval)) :
  k ∉ kvs.*1 → last_binding k kvs = None.
Proof.
  induction kvs as [|[k' v] kvs IH]; simpl; [done|].
  intros Hk. apply not_elem_of_cons in Hk as [Hne Hk].
  rewrite (IH Hk). destruct (String.eqb_spec k' k); [congruence | done].
Qed.

Lemma lookup_bind_all (kvs : list (string * pyval)) (g : gmap string pyval)
    (k : string) :
  bind_all kvs g !! k = match last_binding k kvs with
                        | Some v => Some v
                        | None => g !! k
                        end.
Proof.
  revert g. induction kvs as [|[k' v] kvs IH]; intros g; simpl; [done|].
  rewrite IH. destruct (last_binding k kvs); [done|].
  destruct (String.eqb_spec k' k) as [->|Hne].
  - by rewrite lookup_insert_eq.
  - by rewrite lookup_insert_ne.
Qed.

Lemma name_bound (x : string) (v : pyval) (σ : Interp) :
  globals σ !! x = Some v → name x σ = Ok v σ.
Proof. intros H. unfold name. by rewrite H. Qed.

Lemma module_ref_bound (m : string) (σ : Interp) :
  globals σ !! m = Some (PModule m) → module_ref m σ = Ok tt σ.
Proof.
  intros H. unfold module_ref, mbind, M_bind. rewrite (name_bound _ _ _ H).
  by rewrite String.eqb_refl.
Qed.

Lemma list_insert_front {A} (x : A) (l : list A) : list_insert 0 x l = x :: l.
Proof.
  unfold list_insert. simpl. by rewrite Z.min_l by lia.
Qed.

Lemma rtd_flag_true (σ : Interp) :
  rtd_flag σ = true ↔ os_environ σ !! "READTHEDOCS" = Some "True".
Proof.
  unfold rtd_flag. destruct (os_environ σ !! "READTHEDOCS") as [s|]; simpl.
  - rewrite String.eqb_eq. split; congruence.
  - split; discriminate.
Qed.

Section ConfFacts.

Variable abspath : string → string → string.

Lemma preamble_run (σ : Interp) :
  exec (preamble abspath) σ =
  Ok tt (set_sys_path (cons (abspath (cwd σ) ""))
           (set_globals (bind_all [("sys", PModule "sys"); ("os", PModule "os")]) σ)).
Proof.
  destruct σ as [env dir path g].
  unfold preamble, exec, import_, assign, mbind, M_bind, set_globals; simpl.
  rewrite module_ref_bound by (simpl; by rewrite lookup_insert_ne, lookup_insert_eq).
  rewrite module_ref_bound by (simpl; by rewrite lookup_insert_eq).
  unfold os_path_abspath, sys_path_insert, set_sys_path; simpl.
  by rewrite list_insert_front.
Qed.

Lemma theme_selection_run (σ : Interp) :
  globals σ !! "os" = Some (PModule "os") →
  exec theme_selection σ =
  Ok tt (set_globals
           (bind_all [("on_rtd", PBool (rtd_flag σ));
                      ("html_theme", PStr (theme_name (rtd_flag σ)))]) σ).
Proof.
  intros Hos. destruct σ as [env dir path g].
  unfold theme_selection, exec, mbind, M_bind.
  rewrite module_ref_bound by done.
  unfold os_environ_get, assign, set_globals; simpl.
  rewrite (name_bound "on_rtd" (PBool (rtd_flag (MkInterp env dir path g))))
    by (simpl; by rewrite lookup_insert_eq).
  unfold rtd_flag; simpl.
  by destruct (py_eq _ _).
Qed.

Lemma conf_run (σ : Interp) :
  exec (conf abspath) σ = Ok tt (conf_post abspath σ).
Proof.
  unfold conf. rewrite exec_app, preamble_run, exec_app, exec_literals.
  rewrite exec_app, theme_selection_run, exec_literals.
  - destruct σ as [env dir path g]. unfold conf_post, conf_bindings.
    by rewrite !bind_all_app.
  - destruct σ as [env dir path g].
    cbn [globals set_globals set_sys_path].
    rewrite !lookup_bind_all. reflexivity.
Qed.

Lemma conf_post_lookup (σ : Interp) (k : string) :
  globals (conf_post abspath σ) !! k =
  match last_binding k (conf_bindings (rtd_flag σ)) with
  | Some v => Some v
  | None => globals σ !! k
  end.
Proof. apply lookup_bind_all. Qed.

Variable dir_exists : string → bool.
Variable foreign_import : pyval → option exn.

Lemma import_guarded_run (m : string) (σ : Interp) :
  import_outcome foreign_import (globals σ !! "__builtins__") = None →
  import_guarded foreign_import m σ = Ok tt (set_globals <[m := PModule m]> σ).
Proof. intros H. unfold import_guarded. by rewrite H. Qed.

Lemma os_path_abspath_guarded_empty (σ : Interp) :
  os_path_abspath_guarded abspath dir_exists "" σ =
  if dir_exists (cwd σ) then Ok (abspath (cwd σ) "") σ
  else Raise FileNotFoundError.
Proof.
  unfold os_path_abspath_guarded, isabs, os_getcwd, mbind, M_bind; simpl.
  by destruct (dir_exists (cwd σ)).
Qed.

Lemma preamble_guarded_run (σ : Interp) :
  import_outcome foreign_import (globals σ !! "__builtins__") = None →
  exec (preamble_guarded abspath dir_exists foreign_import) σ =
  if dir_exists (cwd σ) then exec (preamble abspath) σ
  else Raise FileNotFoundError.
Proof.
  intros Himp. rewrite preamble_run. destruct σ as [env dir path g].
  unfold preamble_guarded. cbn [exec]. unfold mbind at 1, M_bind at 1.
  rewrite import_guarded_run by done.
  unfold mbind at 1, M_bind at 1.
  rewrite import_guarded_run
    by (cbn [globals set_globals]; by rewrite lookup_insert_ne).
  unfold mbind at 1, M_bind at 1. unfold mbind at 1, M_bind at 1.
  rewrite module_ref_bound
    by (cbn [globals set_globals];
        by rewrite lookup_insert_ne, lookup_insert_eq).
  unfold mbind at 1, M_bind at 1.
  rewrite module_ref_bound
    by (cbn [globals set_globals]; by rewrite lookup_insert_eq).
  unfold mbind at 1, M_bind at 1.
  rewrite os_path_abspath_guarded_empty.
  cbn [cwd set_globals]. destruct (dir_exists dir); [|done].
  unfold sys_path_insert, set_sys_path, set_globals, mbind, M_bind, mret, M_ret.
  cbn [os_environ cwd sys_path globals bind_all foldl fst snd].
  by rewrite list_insert_front.
Qed.

Lemma conf_guarded_run (σ : Interp) :
  import_outcome foreign_import (globals σ !! "__builtins__") = None →
  exec (conf_guarded abspath dir_exists foreign_import) σ =
  if dir_exists (cwd σ) then Ok tt (conf_post abspath σ)
  else Raise FileNotFoundError.
Proof.
  intros Himp. unfold conf_guarded.
  rewrite exec_app, preamble_guarded_run by done.
  destruct (dir_exists (cwd σ)); [|done].
  rewrite <- conf_run. unfold conf. by rewrite exec_app.
Qed.

Lemma conf_guarded_import_error (σ : Interp) (e : exn) :
  import_outcome foreign_import (globals σ !! "__builtins__") = Some e →
  exec (conf_guarded abspath dir_exists foreign_import) σ = Raise e.
Proof.
  intros Himp. unfold conf_guarded. rewrite exec_app.
  assert (exec (preamble_guarded abspath dir_exists foreign_import) σ
          = Raise e) as ->; [|done].
  unfold preamble_guarded. cbn [exec].
  unfold mbind at 1, M_bind at 1, import_guarded at 1. by rewrite Himp.
Qed.

End ConfFacts.

Lemma html_theme_binding (b : bool) :
  last_binding "html_theme" (conf_bindings b) = Some (PStr (theme_name b)).
Proof. reflexivity. Qed.

Lemma on_rtd_binding (b : bool) :
  last_binding "on_rtd" (conf_bindings b) = Some (PBool b).
Proof. reflexivity. Qed.

Lemma last_binding_flag_irrelevant (k : string) (b1 b2 : bool) :
  k ≠ "html_theme" → k ≠ "on_rtd" →
  last_binding k (conf_bindings b1) = last_binding k (conf_bindings b2).
Proof.
  intros Ht Hr. unfold conf_bindings. rewrite !last_binding_app.
  destruct (last_binding k output_options); [done|].
  cbn [last_binding fst snd].
  destruct (String.eqb_spec "html_theme" k); [congruence|].
  destruct (String.eqb_spec "on_rtd" k); [congruence|]. done.
Qed.

Lemma assigned_names_flag (b : bool) : (conf_bindings b).*1 = assigned_names.
Proof. by destruct b. Qed.

(** ** The claims *)

Section Claims.

Variable abspath : string → string → string.

(** C1.  Whatever the environment, the run binds [html_theme]: to
    ["default"] when [READTHEDOCS] is exactly the string ["True"], and to
    ["sphinx_rtd_theme"] for every other value, the unset variable and
    strings that differ only in case included. *)
Theorem html_theme_follows_READTHEDOCS (σ : Interp) :
  ∃ σ', exec (conf abspath) σ = Ok tt σ' ∧
    (os_environ σ !! "READTHEDOCS" = Some "True" →
       globals σ' !! "html_theme" = Some (PStr "default")) ∧
    (os_environ σ !! "READTHEDOCS" ≠ Some "True" →
       globals σ' !! "html_theme" = Some (PStr "sphinx_rtd_theme")).
Proof.
  exists (conf_post abspath σ). split; [apply conf_run|].
  rewrite conf_post_lookup, html_theme_binding.
  split; intros H.
  - apply rtd_flag_true in H. by rewrite H.
  - destruct (rtd_flag σ) eqn:E; [|done].
    apply rtd_flag_true in E. contradiction.
Qed.

(** C2.  Two runs from the same namespace, in environments that differ
    arbitrarily, agree on every binding other than [html_theme] and
    [on_rtd]. *)
Theorem other_bindings_ignore_environment (σ1 σ2 : Interp) :
  globals σ1 = globals σ2 →
  ∃ σ1' σ2',
    exec (conf abspath) σ1 = Ok tt σ1' ∧
    exec (conf abspath) σ2 = Ok tt σ2' ∧
    ∀ k, k ≠ "html_theme" → k ≠ "on_rtd" →
         globals σ1' !! k = globals σ2' !! k.
Proof.
  intros Hg. exists (conf_post abspath σ1), (conf_post abspath σ2).
  split; [apply conf_run|]. split; [apply conf_run|].
  intros k Ht Hr. rewrite !conf_post_lookup, Hg.
  by rewrite (last_binding_flag_irrelevant k (rtd_flag σ1) (rtd_flag σ2)).
Qed.

Variable dir_exists : string → bool.
Variable foreign_import : pyval → option exn.

(** C3, as amended.  The run cannot fail in any environment in which the
    library calls of lines 3, 4 and 6 succeed, that is, when the import
    machinery works and the working directory still exists: then the lookup
    of [READTHEDOCS] returns a value, [None] when the variable is unset;
    the comparison of that value with ['True'] is the boolean bound to
    [on_rtd]; and the run ends normally, never with an exception. *)
Theorem evaluation_raises_only_in_library (σ : Interp) :
  import_outcome foreign_import (globals σ !! "__builtins__") = None →
  dir_exists (cwd σ) = true →
  ∃ v σ',
    os_environ_get "READTHEDOCS" PNone σ = Ok v σ ∧
    (os_environ σ !! "READTHEDOCS" = None → v = PNone) ∧
    exec (conf_guarded abspath dir_exists foreign_import) σ = Ok tt σ' ∧
    globals σ' !! "on_rtd" = Some (PBool (py_eq v (PStr "True"))) ∧
    ∀ e, exec (conf_guarded abspath dir_exists foreign_import) σ ≠ Raise e.
Proof.
  intros Himp Hdir.
  pose proof (conf_guarded_run abspath dir_exists foreign_import σ Himp)
    as Hrun.
  rewrite Hdir in Hrun.
  eexists _, (conf_post abspath σ). split; [reflexivity|].
  split; [by intros ->|].
  split; [exact Hrun|].
  split; [by rewrite conf_post_lookup, on_rtd_binding|].
  intros e. by rewrite Hrun.
Qed.

(** C4.  The resulting namespace is a function of the value of
    [READTHEDOCS] alone: two runs from the same namespace whose
    environments agree on that variable end with equal namespaces, whatever
    else differs between the two processes. *)
Theorem namespace_determined_by_READTHEDOCS (σ1 σ2 : Interp) :
  globals σ1 = globals σ2 →
  os_environ σ1 !! "READTHEDOCS" = os_environ σ2 !! "READTHEDOCS" →
  ∃ σ1' σ2',
    exec (conf abspath) σ1 = Ok tt σ1' ∧
    exec (conf abspath) σ2 = Ok tt σ2' ∧
    globals σ1' = globals σ2'.
Proof.
  intros Hg He. exists (conf_post abspath σ1), (conf_post abspath σ2).
  split; [apply conf_run|]. split; [apply conf_run|].
  unfold conf_post, rtd_flag; cbn [globals]. by rewrite Hg, He.
Qed.

(** C5, as amended.  Besides the namespace the run changes [sys.path], and
    only by putting [os.path.abspath('')] in front of it; [os.environ] and
    the working directory are left as they were, and in the namespace only
    the names the file binds can change. *)
Theorem evaluation_frame (σ : Interp) :
  ∃ σ', exec (conf abspath) σ = Ok tt σ' ∧
    os_environ σ' = os_environ σ ∧
    cwd σ' = cwd σ ∧
    sys_path σ' = abspath (cwd σ) "" :: sys_path σ ∧
    ∀ k, k ∉ assigned_names → globals σ' !! k = globals σ !! k.
Proof.
  exists (conf_post abspath σ). split; [apply conf_run|].
  repeat (split; [reflexivity|]).
  intros k Hk. rewrite conf_post_lookup, last_binding_None; [done|].
  by rewrite assigned_names_flag.
Qed.

(** C6.  In every environment the resulting namespace defines [project],
    [version], [release] and [html_theme], the first three with the
    constants ["Bit Recovery"], ["1.2"] and ["1.2.1"]. *)
Theorem fixed_project_keys (σ : Interp) :
  ∃ σ', exec (conf abspath) σ = Ok tt σ' ∧
    globals σ' !! "project" = Some (PStr "Bit Recovery") ∧
    globals σ' !! "version" = Some (PStr "1.2") ∧
    globals σ' !! "release" = Some (PStr "1.2.1") ∧
    is_Some (globals σ' !! "html_theme").
Proof.
  exists (conf_post abspath σ). split; [apply conf_run|].
  rewrite !conf_post_lookup. repeat (split; [reflexivity|]).
  rewrite html_theme_binding. by eexists.
Qed.

(** C7.  The run terminates in every environment.  The body is a list of 39
    top-level statements that [exec] goes through once; the namespace it
    leaves is the file's bindings made one after the other, in program
    order, with a single two-way choice among them. *)
Theorem evaluation_is_one_pass (σ : Interp) :
  length (conf abspath) = 39%nat ∧
  ∃ b σ', exec (conf abspath) σ = Ok tt σ' ∧
          globals σ' = bind_all (conf_bindings b) (globals σ).
Proof.
  split; [reflexivity|].
  exists (rtd_flag σ), (conf_post abspath σ). split; [apply conf_run | done].
Qed.

(** C8.  [on_rtd] and the theme agree: [on_rtd] is [True] exactly when
    [html_theme] is ["default"], and [False] exactly when it is
    ["sphinx_rtd_theme"]. *)
Theorem on_rtd_agrees_with_theme (σ : Interp) :
  ∃ σ' b t, exec (conf abspath) σ = Ok tt σ' ∧
    globals σ' !! "on_rtd" = Some (PBool b) ∧
    globals σ' !! "html_theme" = Some (PStr t) ∧
    (b = true ↔ t = "default") ∧
    (b = false ↔ t = "sphinx_rtd_theme").
Proof.
  exists (conf_post abspath σ), (rtd_flag σ), (theme_name (rtd_flag σ)).
  split; [apply conf_run|].
  rewrite !conf_post_lookup, on_rtd_binding, html_theme_binding.
  do 2 (split; [reflexivity|]).
  by destruct (rtd_flag σ).
Qed.

(** C9.  [html_theme] is one of ["default"] and ["sphinx_rtd_theme"], and
    [html_theme_path] is the list [["_themes"]] whichever was chosen. *)
Theorem theme_is_one_of_two (σ : Interp) :
  ∃ σ', exec (conf abspath) σ = Ok tt σ' ∧
    (globals σ' !! "html_theme" = Some (PStr "default") ∨
     globals σ' !! "html_theme" = Some (PStr "sphinx_rtd_theme")) ∧
    globals σ' !! "html_theme_path" = Some (PList [PStr "_themes"]).
Proof.
  exists (conf_post abspath σ). split; [apply conf_run|].
  rewrite !conf_post_lookup, html_theme_binding.
  split; [|reflexivity].
  destruct (rtd_flag σ); [by left | by right].
Qed.

(** C10.  The metadata agree across the output formats: one title is the
    value of [project], [htmlhelp_basename], [epub_title] and
    [epub_basename], the name in the entries of [man_pages] and
    [texinfo_documents], and the stem of the file name and of the document
    title in [latex_documents]; one author is in the three document
    entries and is [epub_author] and [epub_publisher]; [epub_copyright] is
    [copyright]; and every document entry starts with [master_doc]. *)
Theorem metadata_is_consistent (σ : Interp) :
  ∃ σ' title author master notice,
    exec (conf abspath) σ = Ok tt σ' ∧
    title = "Bit Recovery" ∧ author = "Dirk Roorda" ∧ master = "index" ∧
    globals σ' !! "master_doc" = Some (PStr master) ∧
    globals σ' !! "project" = Some (PStr title) ∧
    globals σ' !! "htmlhelp_basename" = Some (PStr title) ∧
    globals σ' !! "epub_title" = Some (PStr title) ∧
    globals σ' !! "epub_basename" = Some (PStr title) ∧
    globals σ' !! "latex_documents" =
      Some (PList [ PTuple [ PStr master; PStr (title +:+ ".tex");
                             PStr (title +:+ " Documentation");
                             PStr author; PStr "manual" ] ]) ∧
    globals σ' !! "man_pages" =
      Some (PList [ PTuple [ PStr master; PStr title;
                             PStr (title +:+ " Documentation");
                             PList [PStr author]; PInt 1 ] ]) ∧
    globals σ' !! "texinfo_documents" =
      Some (PList [ PTuple [ PStr master; PStr title;
                             PStr (title +:+ " Documentation");
                             PStr author; PStr title;
                             PStr "One line description of project.";
                             PStr "Miscellaneous" ] ]) ∧
    globals σ' !! "epub_author" = Some (PStr author) ∧
    globals σ' !! "epub_publisher" = Some (PStr author) ∧
    globals σ' !! "copyright" = Some (PStr notice) ∧
    globals σ' !! "epub_copyright" = Some (PStr notice).
Proof.
  exists (conf_post abspath σ), "Bit Recovery", "Dirk Roorda", "index",
         "2013, Dirk Roorda".
  split; [apply conf_run|].
  rewrite !conf_post_lookup. repeat split.
Qed.

End Claims.

(** ** The claims at the sample processes *)

(** The four scenarios of C1: unset, ["True"], ["false"], ["TRUE"]. *)
Lemma html_theme_scenarios :
  (∃ σ', exec (conf cwd_abspath) rtd_unset = Ok tt σ' ∧
         globals σ' !! "html_theme" = Some (PStr "sphinx_rtd_theme")) ∧
  (∃ σ', exec (conf cwd_abspath) rtd_True = Ok tt σ' ∧
         globals σ' !! "html_theme" = Some (PStr "default")) ∧
  (∃ σ', exec (conf cwd_abspath) rtd_false = Ok tt σ' ∧
         globals σ' !! "html_theme" = Some (PStr "sphinx_rtd_theme")) ∧
  (∃ σ', exec (conf cwd_abspath) rtd_TRUE = Ok tt σ' ∧
         globals σ' !! "html_theme" = Some (PStr "sphinx_rtd_theme")).
Proof.
  repeat split.
  - destruct (html_theme_follows_READTHEDOCS cwd_abspath rtd_unset)
      as (σ' & Hrun & _ & Hother).
    exists σ'. split; [exact Hrun|]. apply Hother. vm_compute. discriminate.
  - destruct (html_theme_follows_READTHEDOCS cwd_abspath rtd_True)
      as (σ' & Hrun & Htrue & _).
    exists σ'. split; [exact Hrun|]. apply Htrue. reflexivity.
  - destruct (html_theme_follows_READTHEDOCS cwd_abspath rtd_false)
      as (σ' & Hrun & _ & Hother).
    exists σ'. split; [exact Hrun|]. apply Hother. vm_compute. discriminate.
  - destruct (html_theme_follows_READTHEDOCS cwd_abspath rtd_TRUE)
      as (σ' & Hrun & _ & Hother).
    exists σ'. split; [exact Hrun|]. apply Hother. vm_compute. discriminate.
Defined.

Lemma other_bindings_True_vs_unset :
  ∃ σ1' σ2',
    exec (conf cwd_abspath) rtd_True = Ok tt σ1' ∧
    exec (conf cwd_abspath) rtd_unset = Ok tt σ2' ∧
    ∀ k, k ≠ "html_theme" → k ≠ "on_rtd" →
         globals σ1' !! k = globals σ2' !! k.
Proof.
  apply (other_bindings_ignore_environment cwd_abspath rtd_True rtd_unset).
  reflexivity.
Defined.

Lemma evaluation_with_library_unset :
  ∃ σ', exec (conf_guarded cwd_abspath every_dir foreign_import_fails)
          rtd_unset = Ok tt σ' ∧
        globals σ' !! "on_rtd" = Some (PBool false).
Proof.
  destruct (evaluation_raises_only_in_library cwd_abspath every_dir
              foreign_import_fails rtd_unset)
    as (v & σ' & _ & Hnone & Hrun & Hflag & _); [reflexivity | reflexivity |].
  exists σ'. split; [exact Hrun|].
  rewrite Hflag, Hnone; reflexivity.
Defined.

(** C3 as stated fails: line 6 raises when the working directory has been
    removed, and line 3 raises under an empty [__builtins__]. *)
Lemma evaluation_can_raise :
  exec (conf_guarded cwd_abspath
          (fs_without "/home/docs/bit-recover/docs") foreign_import_fails)
       rtd_unset = Raise FileNotFoundError ∧
  exec (conf_guarded cwd_abspath every_dir foreign_import_fails)
       rtd_empty_builtins = Raise ImportError.
Proof.
  split.
  - by rewrite conf_guarded_run.
  - by apply conf_guarded_import_error.
Qed.

Lemma namespace_same_on_two_machines :
  ∃ σ1' σ2',
    exec (conf cwd_abspath) rtd_True = Ok tt σ1' ∧
    exec (conf cwd_abspath) rtd_True_elsewhere = Ok tt σ2' ∧
    globals σ1' = globals σ2'.
Proof.
  apply (namespace_determined_by_READTHEDOCS cwd_abspath
           rtd_True rtd_True_elsewhere); reflexivity.
Defined.

(** C5 as stated fails: the run changes [sys.path]. *)
Lemma sys_path_is_modified :
  ∃ σ', exec (conf cwd_abspath) rtd_unset = Ok tt σ' ∧
    sys_path rtd_unset = ["/usr/lib/python3"] ∧
    sys_path σ' = ["/home/docs/bit-recover/docs"; "/usr/lib/python3"] ∧
    sys_path σ' ≠ sys_path rtd_unset.
Proof.
  exists (conf_post cwd_abspath rtd_unset). split; [apply conf_run|].
  repeat split. discriminate.
Qed.

Lemma evaluation_frame_prepared :
  ∃ σ', exec (conf cwd_abspath) rtd_prepared = Ok tt σ' ∧
    sys_path σ' = ["/home/docs/bit-recover/docs"; "/usr/lib/python3"] ∧
    globals σ' !! "__file__" = Some (PStr "conf.py").
Proof.
  destruct (evaluation_frame cwd_abspath rtd_prepared)
    as (σ' & Hrun & _ & _ & Hpath & Hframe).
  exists σ'. split; [exact Hrun|]. split; [exact Hpath|].
  rewrite Hframe; [reflexivity|].
  apply (bool_decide_unpack _). vm_compute. exact I.
Defined.

(** ** Further properties of the file *)


Lemma last_binding_NoDup (k : string) (v : pyval)
    (kvs : list (string * pyval)) :
  NoDup kvs.*1 → (k, v) ∈ kvs → last_binding k kvs = Some v.
Proof.
  induction kvs as [|[k' v'] kvs IH]; simpl; intros Hnd Hin.
  - by apply elem_of_nil in Hin.
  - apply NoDup_cons in Hnd as [Hfresh Hnd].
    apply elem_of_cons in Hin as [Heq|Hin].
    + injection Heq as -> ->.
      rewrite (last_binding_None _ _ Hfresh). by rewrite String.eqb_refl.
    + by rewrite (IH Hnd Hin).
Qed.

Lemma dom_bind_all (kvs : list (string * pyval)) (g : gmap string pyval) :
  dom (bind_all kvs g) = list_to_set kvs.*1 ∪ dom g.
Proof.
  revert g. induction kvs as [|[k v] kvs IH]; intros g.
  - cbn [bind_all foldl fmap list_fmap]. rewrite list_to_set_nil.
    by rewrite (left_id_L ∅ (∪)).
  - change (bind_all ((k, v) :: kvs) g) with (bind_all kvs (<[k := v]> g)).
    rewrite IH, dom_insert_L, fmap_cons, list_to_set_cons. cbn [fst].
    apply set_eq. intros x. rewrite !elem_of_union. tauto.
Qed.

Lemma bind_all_twice (kvs : list (string * pyval)) (g : gmap string pyval) :
  bind_all kvs (bind_all kvs g) = bind_all kvs g.
Proof.
  apply map_eq. intros k. rewrite !lookup_bind_all.
  by destruct (last_binding k kvs).
Qed.

Lemma assigned_names_NoDup : NoDup assigned_names.
Proof. apply (bool_decide_unpack _). vm_compute. exact I. Qed.

Section Reruns.

Variable abspath : string → string → string.

Lemma rtd_flag_conf_post (σ : Interp) :
  rtd_flag (conf_post abspath σ) = rtd_flag σ.
Proof. reflexivity. Qed.

Lemma reruns_run (n : nat) (σ : Interp) :
  exec (reruns abspath n) σ = Ok tt (Nat.iter n (conf_post abspath) σ).
Proof.
  revert σ. induction n as [|n IH]; intros σ.
  - reflexivity.
  - unfold reruns. rewrite replicate_S. cbn [concat].
    rewrite exec_app, conf_run. fold (reruns abspath n). rewrite IH.
    by rewrite <- Nat.iter_succ_r.
Qed.

Lemma iter_conf_post_process (n : nat) (σ : Interp) :
  os_environ (Nat.iter n (conf_post abspath) σ) = os_environ σ ∧
  cwd (Nat.iter n (conf_post abspath) σ) = cwd σ ∧
  sys_path (Nat.iter n (conf_post abspath) σ) =
    (replicate n (abspath (cwd σ) "") ++ sys_path σ)%list.
Proof.
  induction n as [|n (He & Hc & Hp)]; [done|].
  rewrite Nat.iter_succ.
  set (τ := Nat.iter n (conf_post abspath) σ) in *.
  unfold conf_post. cbn [os_environ cwd sys_path].
  rewrite He, Hc, Hp. done.
Qed.

Lemma iter_conf_post_globals (n : nat) (σ : Interp) :
  globals (Nat.iter (S n) (conf_post abspath) σ) =
  globals (conf_post abspath σ).
Proof.
  induction n as [|n IH]; [done|].
  change (Nat.iter (S (S n)) (conf_post abspath) σ)
    with (conf_post abspath (Nat.iter (S n) (conf_post abspath) σ)).
  unfold conf_post at 1. cbn [globals]. rewrite IH.
  assert (rtd_flag (Nat.iter (S n) (conf_post abspath) σ) = rtd_flag σ)
    as ->.
  { unfold rtd_flag.
    by rewrite (proj1 (iter_conf_post_process (S n) σ)). }
  unfold conf_post. cbn [globals]. apply bind_all_twice.
Qed.

(** X1.  Executing the file again, any number of times, in the namespace it
    has already filled, leaves the namespace as the first run left it. *)
Theorem rerun_keeps_namespace (n : nat) (σ : Interp) :
  ∃ σ1 σn,
    exec (conf abspath) σ = Ok tt σ1 ∧
    exec (reruns abspath (S n)) σ = Ok tt σn ∧
    globals σn = globals σ1.
Proof.
  exists (conf_post abspath σ), (Nat.iter (S n) (conf_post abspath) σ).
  split; [apply conf_run|]. split; [apply reruns_run|].
  apply iter_conf_post_globals.
Qed.

(** X2.  Line 6 inserts without looking: every execution puts one more
    copy of [os.path.abspath('')] in front of [sys.path], so after [n]
    executions there are [n] of them ahead of the original entries. *)
Theorem rerun_grows_sys_path (n : nat) (σ : Interp) :
  ∃ σn,
    exec (reruns abspath n) σ = Ok tt σn ∧
    sys_path σn = (replicate n (abspath (cwd σ) "") ++ sys_path σ)%list ∧
    os_environ σn = os_environ σ ∧
    cwd σn = cwd σ.
Proof.
  exists (Nat.iter n (conf_post abspath) σ).
  split; [apply reruns_run|].
  destruct (iter_conf_post_process n σ) as (He & Hc & Hp). done.
Qed.


(** X4.  No name is assigned twice, so every literal assignment of the file
    is in effect at the end of the run: none is overwritten by a later
    statement. *)
Theorem literal_assignments_in_effect (σ : Interp) :
  ∃ σ', exec (conf abspath) σ = Ok tt σ' ∧
    ∀ k v, (k, v) ∈ (general_options ++ output_options)%list →
           globals σ' !! k = Some v.
Proof.
  exists (conf_post abspath σ). split; [apply conf_run|].
  intros k v Hin. rewrite conf_post_lookup.
  rewrite (last_binding_NoDup k v); [done| |].
  - rewrite assigned_names_flag. apply assigned_names_NoDup.
  - unfold conf_bindings. rewrite !elem_of_app.
    apply elem_of_app in Hin as [Hg|Ho]; [right; by left | by do 3 right].
Qed.

(** X5.  The names bound after the run are those bound before it together
    with the 38 distinct names the file assigns. *)
Theorem names_after_run (σ : Interp) :
  ∃ σ', exec (conf abspath) σ = Ok tt σ' ∧
    dom (globals σ') = list_to_set assigned_names ∪ dom (globals σ) ∧
    NoDup assigned_names ∧
    length assigned_names = 38%nat.
Proof.
  exists (conf_post abspath σ). split; [apply conf_run|].
  split; [|split; [apply assigned_names_NoDup | reflexivity]].
  unfold conf_post. cbn [globals].
  by rewrite dom_bind_all, assigned_names_flag.
Qed.

End Reruns.

(** X6.  Lines 34-38 rely on the import of line 4.  Run where [os] is
    unbound they raise [NameError]; where [os] is bound to an object
    without an attribute [environ] ([None], a boolean, an integer, a
    string, a list, a tuple, a dictionary, or the module [sys]) they raise
    [AttributeError]; where it is the module [os] they bind [on_rtd] and
    [html_theme] and touch nothing else. *)
Theorem theme_selection_needs_os (σ : Interp) :
  (globals σ !! "os" = None →
     exec theme_selection σ = Raise (NameError "os")) ∧
  (∀ v, globals σ !! "os" = Some v →
     v = PModule "sys" ∨ (∀ m, v ≠ PModule m) →
     exec theme_selection σ = Raise (AttributeError "os")) ∧
  (globals σ !! "os" = Some (PModule "os") →
     ∃ σ', exec theme_selection σ = Ok tt σ' ∧
       os_environ σ' = os_environ σ ∧ cwd σ' = cwd σ ∧
       sys_path σ' = sys_path σ ∧
       globals σ' =
         <["html_theme" := PStr (theme_name (rtd_flag σ))]>
           (<["on_rtd" := PBool (rtd_flag σ)]> (globals σ))).
Proof.
  split; [|split].
  - intros Hos. unfold theme_selection. cbn [exec].
    unfold mbind, M_bind, module_ref, mbind, M_bind, name.
    by rewrite Hos.
  - intros v Hos Hv. unfold theme_selection. cbn [exec].
    unfold mbind, M_bind, module_ref, mbind, M_bind, name.
    rewrite Hos. destruct Hv as [->|Hv]; [reflexivity|].
    destruct v as [| | | | | | |m]; try reflexivity.
    by destruct (Hv m).
  - intros Hos. rewrite theme_selection_run by done.
    eexists. split; [reflexivity|]. by destruct σ.
Qed.

(** ** The further properties at the sample processes *)


Lemma latex_elements_in_effect :
  ∃ σ', exec (conf cwd_abspath) rtd_True = Ok tt σ' ∧
    globals σ' !! "latex_elements" =
      Some (PDict [("papersize", PStr "a4paper"); ("pointsize", PStr "10pt")]).
Proof.
  destruct (literal_assignments_in_effect cwd_abspath rtd_True)
    as (σ' & Hrun & Hall).
  exists σ'. split; [exact Hrun|]. apply Hall.
  apply elem_of_app. right. unfold output_options.
  do 9 apply list_elem_of_further. apply list_elem_of_here.
Defined.

Lemma theme_selection_without_import :
  exec theme_selection no_os = Raise (NameError "os") ∧
  exec theme_selection os_shadowed = Raise (AttributeError "os") ∧
  ∃ σ', exec theme_selection
          (set_globals <["os" := PModule "os"]> no_os) = Ok tt σ' ∧
        sys_path σ' = ["/usr/lib/python3"].
Proof.
  split; [|split].
  - apply (proj1 (theme_selection_needs_os no_os)). reflexivity.
  - apply (proj1 (proj2 (theme_selection_needs_os os_shadowed))
             (PStr "posix")); [reflexivity | right; discriminate].
  - destruct (proj2 (proj2 (theme_selection_needs_os
               (set_globals <["os" := PModule "os"]> no_os))))
      as (σ' & Hrun & _ & _ & Hpath & _).
    + apply lookup_insert_eq.
    + exists σ'. split; [exact Hrun | exact Hpath].
Defined.
